(** * ClassQuiz application bootstrap ([classquiz/__init__.py])

    A shallow embedding of the module that composes the ClassQuiz HTTP
    application: middleware registration, the [startup]/[shutdown] hooks run
    against the shared database handle, the background scheduler task and the
    route registration table.

    Coroutines are functions in a state-and-exception monad over a [world]
    holding the database handle, the tasks created on the event loop and a
    chronological log of the calls made to collaborators that live outside
    this module (database, search, telemetry, error reporter). How those
    collaborators answer is a parameter ([Env]).

    The module's two remaining top-level statements, the optional
    [sentry_sdk.init] and the aliasing [app.state.database = database], have
    no counterpart of their own: there is one handle, kept in the world, and
    the reporter's calls are logged whether or not it was initialized. *)

From Stdlib Require Import String List Bool Arith NArith Sorted Lia.
Import ListNotations.
Local Open Scope string_scope.
Local Open Scope list_scope.

(** ** Exceptions, requests, responses *)

(** A raised Python object. [exc_id] stands for the identity of the object,
    [exc_is_Exception] tells whether it is an instance of [Exception] (the
    class an [except Exception] clause matches) or only of [BaseException]
    (for instance [asyncio.CancelledError], [KeyboardInterrupt]). *)
Record pyexc : Type := mkExc {
  exc_id : nat;
  exc_is_Exception : bool
}.

Record Request : Type := mkRequest { url_path : string }.
Record Response : Type := mkResponse { status_code : nat }.

(** ** The world *)

Inductive coroutine : Type :=
| co_background_tasks.

Record Task : Type := mkTask {
  task_id : nat;
  task_coro : coroutine
}.

(** Calls that leave this module. *)
Inductive call : Type :=
| DbConnect
| DbDisconnect
| MeilisearchInit
| TelemetryPing
| CreateTask (t : Task)
| PushScope
| SetContext (key : string) (request : Request)
| CaptureException (e : pyexc)
| PopScope.

(** One log entry: the call, what [database.is_connected] was when the call
    was made, and the exception the call raised, if any. *)
Record event : Type := Ev {
  ev_call : call;
  ev_connected : bool;
  ev_outcome : option pyexc
}.

Record world : Type := mkWorld {
  is_connected : bool;          (* database.is_connected *)
  connections_opened : nat;     (* connections opened by the handle so far *)
  tasks : list Task;            (* tasks created on the event loop *)
  log : list event              (* oldest first *)
}.

Definition record_call (c : call) (o : option pyexc) (w : world) : world :=
  {| is_connected := is_connected w;
     connections_opened := connections_opened w;
     tasks := tasks w;
     log := log w ++ [Ev c (is_connected w) o] |}.

Definition set_connected (b : bool) (w : world) : world :=
  {| is_connected := b;
     connections_opened := connections_opened w;
     tasks := tasks w;
     log := log w |}.

Definition count_opened (w : world) : world :=
  {| is_connected := is_connected w;
     connections_opened := S (connections_opened w);
     tasks := tasks w;
     log := log w |}.

Definition add_task (t : Task) (w : world) : world :=
  {| is_connected := is_connected w;
     connections_opened := connections_opened w;
     tasks := tasks w ++ [t];
     log := log w |}.

(** A process that has just booted. *)
Definition fresh_world : world :=
  {| is_connected := false; connections_opened := 0; tasks := []; log := [] |}.

(** ** The coroutine monad *)

Inductive result (A : Type) : Type :=
| Return (a : A)
| Raise (e : pyexc).
Arguments Return {A} a.
Arguments Raise {A} e.

Definition M (A : Type) : Type := world -> result A * world.

Definition ret {A} (a : A) : M A := fun w => (Return a, w).

Definition raise {A} (e : pyexc) : M A := fun w => (Raise e, w).

Definition bind {A B} (m : M A) (k : A -> M B) : M B :=
  fun w =>
    match m w with
    | (Return a, w1) => k a w1
    | (Raise e, w1) => (Raise e, w1)
    end.

(** [try: body except Exception as e: handler e]. Objects that are not
    instances of [Exception] pass through. *)
Definition try_except_Exception {A} (body : M A) (handler : pyexc -> M A) : M A :=
  fun w =>
    match body w with
    | (Return a, w1) => (Return a, w1)
    | (Raise e, w1) =>
        if exc_is_Exception e then handler e w1 else (Raise e, w1)
    end.

Declare Scope py_scope.
Delimit Scope py_scope with py.
Notation "x <- m ;; k" := (bind m (fun x => k))
  (at level 61, m at next level, right associativity) : py_scope.
Notation "m ;; k" := (bind m (fun _ => k))
  (at level 61, right associativity) : py_scope.
Local Open Scope py_scope.

(** Reading the handle's [is_connected] attribute. *)
Definition get_is_connected : M bool := fun w => (Return (is_connected w), w).

(** ** Collaborators *)

(** What the collaborators outside this module do when called in a given
    world: [None] when the call returns, [Some e] when it raises [e]. *)
Record Env : Type := mkEnv {
  connect_raises : world -> option pyexc;
  disconnect_raises : world -> option pyexc;
  meilisearch_init_raises : world -> option pyexc;
  telemetry_ping_raises : world -> option pyexc
}.

(** An awaited call to a collaborator that does not touch the world
    otherwise. *)
Definition extern (c : call) (behaviour : world -> option pyexc) : M unit :=
  fun w =>
    match behaviour w with
    | None => (Return tt, record_call c None w)
    | Some e => (Raise e, record_call c (Some e) w)
    end.

Section Lifecycle.

Variable env : Env.

(** Modelled from the spec: the Database Handle ([classquiz.db.database]),
    "a process-wide connection object with explicit connect/disconnect
    lifecycle and an [is_connected] query"; "[connect] is a no-op if already
    connected, [disconnect] is a no-op if already disconnected". A connect
    that raises leaves the handle disconnected. *)
Definition database_connect : M unit :=
  fun w =>
    if is_connected w then (Return tt, record_call DbConnect None w)
    else
      match connect_raises env w with
      | Some e => (Raise e, record_call DbConnect (Some e) w)
      | None =>
          (Return tt,
           set_connected true (count_opened (record_call DbConnect None w)))
      end.

Definition database_disconnect : M unit :=
  fun w =>
    if is_connected w then
      match disconnect_raises env w with
      | Some e => (Raise e, record_call DbDisconnect (Some e) w)
      | None => (Return tt, set_connected false (record_call DbDisconnect None w))
      end
    else (Return tt, record_call DbDisconnect None w).

Definition meilisearch_init : M unit :=
  extern MeilisearchInit (meilisearch_init_raises env).

Definition telemetry_ping : M unit :=
  extern TelemetryPing (telemetry_ping_raises env).

(** [asyncio.create_task(coro)]: the coroutine is scheduled on the loop and
    the caller goes on; the new task is numbered after the tasks created
    before it. *)
Definition create_task (co : coroutine) : M Task :=
  fun w =>
    let t := mkTask (length (tasks w)) co in
    (Return t, add_task t (record_call (CreateTask t) None w)).

(** <<
    async def startup() -> None:
        database_ = app.state.database
        if not database_.is_connected:
            await database_.connect()
        await meilisearch_init()
        await telemetry_ping()
        asyncio.create_task(background_tasks())
    >> *)
Definition startup : M unit :=
  connected <- get_is_connected ;;
  (if negb connected then database_connect else ret tt) ;;
  meilisearch_init ;;
  telemetry_ping ;;
  _t <- create_task co_background_tasks ;;
  ret tt.

(** <<
    async def shutdown() -> None:
        database_ = app.state.database
        if database_.is_connected:
            await database_.disconnect()
    >> *)
Definition shutdown : M unit :=
  connected <- get_is_connected ;;
  if connected then database_disconnect else ret tt.

(** The hook called [n] times in succession by its caller, whatever each
    call returns or raises; the world after the last call. *)
Fixpoint call_times (n : nat) (hook : M unit) (w : world) : world :=
  match n with
  | O => w
  | S k => call_times k hook (snd (hook w))
  end.

End Lifecycle.

(** ** Middleware *)

Definition handler : Type := Request -> M Response.

(** A dispatch function [async def f(request, call_next)]. *)
Definition dispatch : Type := Request -> handler -> M Response.

(** The error reporter ([sentry_sdk]): its calls are logged and return. *)
Definition sentry_call (c : call) : M unit :=
  fun w => (Return tt, record_call c None w).

(** <<
    async def sentry_exception(request: Request, call_next):
        try:
            response = await call_next(request)
            return response
        except Exception as e:
            with sentry_sdk.push_scope() as scope:
                scope.set_context("request", request)
                sentry_sdk.capture_exception(e)
            raise e
    >> *)
Definition sentry_exception : dispatch :=
  fun request call_next =>
    try_except_Exception
      (response <- call_next request ;; ret response)
      (fun e =>
         sentry_call PushScope ;;
         sentry_call (SetContext "request" request) ;;
         sentry_call (CaptureException e) ;;
         sentry_call PopScope ;;
         raise e).

(** ** The framework's application object *)

Inductive Middleware : Type :=
| BaseHTTPMiddleware (name : string) (f : dispatch)
| SessionMiddleware (secret_key : string).


Record IncludedRouter : Type := mkIncluded {
  inc_router : string;
  inc_tags : list string;
  inc_prefix : string;
  inc_include_in_schema : bool
}.

Inductive Route : Type :=
| Include (r : IncludedRouter)
| Mount (path : string) (asgi_app : string).

Record FastAPI : Type := mkApp {
  redoc_url : string;
  docs_url : string;
  user_middleware : list Middleware;   (* index 0 is the outermost *)
  on_startup : list (M unit);
  on_shutdown : list (M unit);
  routes : list Route
}.

(** Registration as the web framework (FastAPI on Starlette) performs it.
    A middleware is always put in front of the ones registered before it,
    and the stack is built so that the entry at index 0 wraps all the
    others: the middleware added last is the first to see a request. *)
Module Starlette.

(** [FastAPI(redoc_url=..., docs_url=...)] *)
Definition new (redoc docs : string) : FastAPI :=
  mkApp redoc docs [] [] [] [].

(** [self.user_middleware.insert(0, Middleware(cls, **options))] *)
Definition add_middleware (m : Middleware) (a : FastAPI) : FastAPI :=
  mkApp (redoc_url a) (docs_url a) (m :: user_middleware a)
        (on_startup a) (on_shutdown a) (routes a).

(** The decorator [@app.middleware("http")] is
    [add_middleware(BaseHTTPMiddleware, dispatch=func)]. *)
Definition middleware_http (name : string) (f : dispatch) (a : FastAPI) : FastAPI :=
  add_middleware (BaseHTTPMiddleware name f) a.

(** [@app.on_event("startup")] and [@app.on_event("shutdown")] *)
Definition on_event_startup (hook : M unit) (a : FastAPI) : FastAPI :=
  mkApp (redoc_url a) (docs_url a) (user_middleware a)
        (on_startup a ++ [hook]) (on_shutdown a) (routes a).

Definition on_event_shutdown (hook : M unit) (a : FastAPI) : FastAPI :=
  mkApp (redoc_url a) (docs_url a) (user_middleware a)
        (on_startup a) (on_shutdown a ++ [hook]) (routes a).

Definition include_router (router : string) (tags : list string)
    (prefix : string) (include_in_schema : bool) (a : FastAPI) : FastAPI :=
  mkApp (redoc_url a) (docs_url a) (user_middleware a)
        (on_startup a) (on_shutdown a)
        (routes a ++ [Include (mkIncluded router tags prefix include_in_schema)]).

Definition mount (path : string) (asgi_app : string) (a : FastAPI) : FastAPI :=
  mkApp (redoc_url a) (docs_url a) (user_middleware a)
        (on_startup a) (on_shutdown a)
        (routes a ++ [Mount path asgi_app]).

Section Stack.

(** What the framework's own [SessionMiddleware] does with a request. *)
Variable session_middleware : string -> dispatch.



End Stack.

End Starlette.

(** ** The application *)

Section Application.

Variable env : Env.
Variable secret_key : string.                 (* settings.secret_key *)
Variable rememberme_middleware : dispatch.    (* classquiz.oauth *)

(** <<
    async def auth_middleware_wrapper(request: Request, call_next):
        return await rememberme_middleware(request, call_next)
    >> *)
Definition auth_middleware_wrapper : dispatch :=
  fun request call_next => rememberme_middleware request call_next.

(** The module body, statement by statement. [a |> f] reads "then [f]". *)
Local Notation "a |> f" := (f a) (at level 45, left associativity, only parsing).

Definition app : FastAPI :=
  Starlette.new "" "/api/docs"
  |> Starlette.middleware_http "sentry_exception" sentry_exception
  |> Starlette.on_event_startup (startup env)
  |> Starlette.on_event_shutdown (shutdown env)
  |> Starlette.middleware_http "auth_middleware_wrapper" auth_middleware_wrapper
  |> Starlette.include_router "login" ["auth"] "/api/v1/login" true
  |> Starlette.add_middleware (SessionMiddleware secret_key)
  |> Starlette.include_router "users" ["users"] "/api/v1/users" true
  |> Starlette.include_router "quiz" ["quiz"] "/api/v1/quiz" true
  |> Starlette.include_router "utils" ["utils"] "/api/v1/utils" true
  |> Starlette.include_router "stats" ["stats"] "/api/v1/stats" true
  |> Starlette.include_router "storage" ["storage"] "/api/v1/storage" true
  |> Starlette.include_router "search" ["search"] "/api/v1/search" true
  |> Starlette.include_router "live" ["live"] "/api/v1/live" true
  |> Starlette.include_router "testing_routes" ["internal"; "testing"]
       "/api/v1/internal/testing" false
  |> Starlette.include_router "editor" ["editor"] "/api/v1/editor" true
  |> Starlette.include_router "eximport" ["export"; "import"] "/api/v1/eximport" true
  |> Starlette.include_router "sitemap" ["sitemap"] "/api/v1/sitemap" true
  |> Starlette.mount "/" "ASGIApp(sio)".

End Application.

(** ** Views of the route table *)

Fixpoint included_routers (rs : list Route) : list IncludedRouter :=
  match rs with
  | [] => []
  | Include r :: rest => r :: included_routers rest
  | Mount _ _ :: rest => included_routers rest
  end.

Fixpoint mount_paths (rs : list Route) : list string :=
  match rs with
  | [] => []
  | Include _ :: rest => mount_paths rest
  | Mount path _ :: rest => path :: mount_paths rest
  end.

Definition registered_prefixes (a : FastAPI) : list string :=
  map inc_prefix (included_routers (routes a)).

Definition hidden_from_schema (a : FastAPI) : list IncludedRouter :=
  filter (fun r => negb (inc_include_in_schema r)) (included_routers (routes a)).

Definition shown_in_schema (a : FastAPI) : list IncludedRouter :=
  filter inc_include_in_schema (included_routers (routes a)).

(** [path] lies under [pfx]: [pfx] is an initial segment of it. *)
Definition under_prefix (pfx path : string) : bool := String.prefix pfx path.

(** The external-interface table as the specification lists it: prefix and
    whether the group is schema-visible (the root transport row left out). *)
Definition spec_interface_table : list (string * bool) :=
  [ ("/api/v1/login", true);
    ("/api/v1/users", true);
    ("/api/v1/quiz", true);
    ("/api/v1/utils", true);
    ("/api/v1/stats", true);
    ("/api/v1/storage", true);
    ("/api/v1/search", true);
    ("/api/v1/live", true);
    ("/api/v1/internal/testing", false);
    ("/api/v1/editor", true);
    ("/api/v1/eximport", true);
    ("/api/v1/sitemap", true) ].

(** ** The background scheduler task *)

Module datetime.

Local Open Scope N_scope.

(** [datetime.timedelta] keeps days, seconds (below 86400) and microseconds. *)
Record timedelta : Type := mk_timedelta {
  days : N;
  seconds : N;
  microseconds : N
}.

(** [timedelta(hours=h)] *)
Definition of_hours (h : N) : timedelta :=
  mk_timedelta ((h * 3600) / 86400) ((h * 3600) mod 86400) 0.

Definition total_seconds (d : timedelta) : N :=
  days d * 86400 + seconds d.

End datetime.

(** Units of work handed to the scheduler. *)
Inductive job_handle : Type :=
| clean_editor_images_up.      (* bg_tasks.clean_editor_images_up *)

Record Job : Type := mkJob {
  job_timing : datetime.timedelta;
  job_handle_of : job_handle
}.

(** [scheduler.asyncio.Scheduler]: the cyclic jobs registered with it. *)
Record Scheduler : Type := mkScheduler { cyclic_jobs : list Job }.

Definition Scheduler_new : Scheduler := mkScheduler [].

(** [schedule.cyclic(timing, handle)] *)
Definition cyclic (timing : datetime.timedelta) (h : job_handle)
    (s : Scheduler) : Scheduler :=
  mkScheduler (cyclic_jobs s ++ [mkJob timing h]).

(** The task's local variable and the sleeps it has completed, in seconds. *)
Record task_state : Type := mkTaskState {
  schedule : Scheduler;
  slept : list nat
}.

Inductive task_status : Type :=
| Running                  (* still inside the loop *)
| Returned                 (* the coroutine returned *)
| Failed (e : pyexc).      (* the coroutine raised, e.g. on cancellation *)

Section BackgroundTasks.

(** What the [i]-th [await asyncio.sleep(1)] does: [None] when it completes,
    [Some e] when it raises (a cancelled task gets [CancelledError] there). *)
Variable sleep_raises : nat -> option pyexc.

(** <<
    while True:
        await asyncio.sleep(1)
    >>
    run for at most [fuel] iterations. *)
Fixpoint while_true_sleep (fuel : nat) (st : task_state) : task_status * task_state :=
  match fuel with
  | O => (Running, st)
  | S k =>
      match sleep_raises (length (slept st)) with
      | Some e => (Failed e, st)
      | None => while_true_sleep k (mkTaskState (schedule st) (slept st ++ [1]))
      end
  end.

(** <<
    async def background_tasks():
        schedule = Scheduler()
        schedule.cyclic(timedelta(hours=6), bg_tasks.clean_editor_images_up)
        while True:
            await asyncio.sleep(1)
    >> *)
Definition background_tasks (fuel : nat) : task_status * task_state :=
  let schedule := Scheduler_new in
  let schedule := cyclic (datetime.of_hours 6%N) clean_editor_images_up schedule in
  while_true_sleep fuel (mkTaskState schedule []).

End BackgroundTasks.

(** ** Observations on the log *)

Definition is_connect (c : call) : bool :=
  match c with DbConnect => true | _ => false end.
Definition is_meilisearch_init (c : call) : bool :=
  match c with MeilisearchInit => true | _ => false end.
Definition is_telemetry_ping (c : call) : bool :=
  match c with TelemetryPing => true | _ => false end.
Definition is_create_task (c : call) : bool :=
  match c with CreateTask _ => true | _ => false end.
Definition is_capture (c : call) : bool :=
  match c with CaptureException _ => true | _ => false end.

(** How many logged calls satisfy [p]. *)
Definition calls (p : call -> bool) (l : list event) : nat :=
  length (filter (fun ev => p (ev_call ev)) l).

(** The four calls the exception-capture wrapper makes for [e]. *)
Definition capture_report (request : Request) (e : pyexc) (connected : bool)
    : list event :=
  [ Ev PushScope connected None;
    Ev (SetContext "request" request) connected None;
    Ev (CaptureException e) connected None;
    Ev PopScope connected None ].

(** ** Concrete collaborators, used to run the model *)

Definition env_ok : Env :=
  mkEnv (fun _ => None) (fun _ => None) (fun _ => None) (fun _ => None).

Definition ping_error : pyexc := mkExc 1 true.
Definition handler_error : pyexc := mkExc 3 true.

(** The telemetry endpoint cannot be reached and the error leaves
    [telemetry_ping]. *)
Definition env_ping_fails : Env :=
  mkEnv (fun _ => None) (fun _ => None) (fun _ => None) (fun _ => Some ping_error).

Definition pass_through : dispatch := fun request call_next => call_next request.


Definition router_fails : handler := fun _ => raise handler_error.

Definition login_request : Request := mkRequest "/api/v1/login".

Definition connected_world : world :=
  {| is_connected := true; connections_opened := 1; tasks := []; log := [] |}.

Definition never_raises : nat -> option pyexc := fun _ => None.

(** What running a spawned coroutine means. *)
Definition coroutine_body (co : coroutine)
    : (nat -> option pyexc) -> nat -> task_status * task_state :=
  match co with
  | co_background_tasks => background_tasks
  end.

(** Position of a call among the steps of [startup]; 4 for any other call. *)
Definition startup_step (c : call) : nat :=
  match c with
  | DbConnect => 0
  | MeilisearchInit => 1
  | TelemetryPing => 2
  | CreateTask _ => 3
  | _ => 4
  end.

(** The tasks [startup] creates when called [n] times with [k] tasks already
    on the loop. *)
Definition scheduler_tasks (k n : nat) : list Task :=
  map (fun i => mkTask i co_background_tasks) (seq k n).


(** ** The lifespan of the application *)

(** The framework runs the registered hooks one after the other:
    [for handler in self.on_startup: await handler()], and the same for
    [on_shutdown]. *)
Fixpoint run_hooks (hooks : list (M unit)) : M unit :=
  match hooks with
  | [] => ret tt
  | hook :: rest => hook ;; run_hooks rest
  end.

(** One boot of the application: the startup hooks, then (if they all
    returned) the shutdown hooks when the server stops. *)
Definition lifespan (a : FastAPI) : M unit :=
  run_hooks (on_startup a) ;; run_hooks (on_shutdown a).

Definition is_disconnect_call (c : call) : bool :=
  match c with DbDisconnect => true | _ => false end.

(** All documentation tags used by the registered route groups. *)
Definition all_tags (a : FastAPI) : list string :=
  concat (map inc_tags (included_routers (routes a))).

(** The connect is refused, everything else works. *)
Definition connect_error : pyexc := mkExc 4 true.
Definition search_error : pyexc := mkExc 5 true.
Definition disconnect_error : pyexc := mkExc 6 true.
Definition cancelled_error : pyexc := mkExc 7 false.

Definition env_connect_fails : Env :=
  mkEnv (fun _ => Some connect_error) (fun _ => None) (fun _ => None) (fun _ => None).

Definition env_search_fails : Env :=
  mkEnv (fun _ => None) (fun _ => None) (fun _ => Some search_error) (fun _ => None).

Definition env_disconnect_fails : Env :=
  mkEnv (fun _ => None) (fun _ => Some disconnect_error) (fun _ => None) (fun _ => None).

(** The task is cancelled during its third sleep. *)
Definition cancelled_at_2 : nat -> option pyexc :=
  fun i => if Nat.eqb i 2 then Some cancelled_error else None.

(** * Properties *)

Ltac unfold_py :=
  unfold startup, shutdown, sentry_exception, try_except_Exception,
    database_connect, database_disconnect, meilisearch_init, telemetry_ping,
    create_task, sentry_call, extern, get_is_connected, bind, ret, raise.

Ltac run_py := unfold_py; cbn.

Ltac unfold_world :=
  unfold add_task, record_call, set_connected, count_opened; cbn.

(** Case analysis on every collaborator answer the goal depends on. *)
Ltac case_answers :=
  repeat match goal with
    | |- context [match ?x with Some _ => _ | None => _ end] =>
        let H := fresh "Hanswer" in destruct x eqn:H; cbn
    end.

(** Every way [startup] can go, by the answers of its collaborators. *)
Ltac startup_cases w :=
  let Hw := fresh "Hw" in
  run_py; destruct (is_connected w) eqn:Hw; cbn;
  rewrite ?Hw; case_answers; unfold_world; rewrite ?Hw.

Section LifecycleFacts.

Variable env : Env.

Lemma shutdown_disconnected (w : world) :
  is_connected w = false -> shutdown env w = (Return tt, w).
Proof.
  intros H. run_py. rewrite H. reflexivity.
Qed.

Lemma shutdown_connected (w : world) :
  is_connected w = true ->
  disconnect_raises env w = None ->
  shutdown env w =
    (Return tt, set_connected false (record_call DbDisconnect None w)).
Proof.
  intros H Hd. run_py. rewrite H. cbn. rewrite H, Hd. reflexivity.
Qed.

End LifecycleFacts.

(** ** Shutdown *)

(** C5. [shutdown] disconnects the handle only when it is connected: when
    the disconnect itself completes, [shutdown] returns normally and leaves
    the handle disconnected, having called [disconnect] exactly once on a
    connected handle and not at all on a disconnected one; a second
    [shutdown] then changes nothing and returns normally. *)
Theorem shutdown_idempotent (env : Env) (w : world)
    (Hdisc : forall w0, disconnect_raises env w0 = None) :
  let w1 := snd (shutdown env w) in
  fst (shutdown env w) = Return tt
  /\ is_connected w1 = false
  /\ log w1 = log w ++ (if is_connected w then [Ev DbDisconnect true None] else [])
  /\ shutdown env w1 = (Return tt, w1).
Proof.
  destruct (is_connected w) eqn:Hc.
  - rewrite (shutdown_connected env w Hc (Hdisc w)). cbn [fst snd].
    split; [reflexivity | split; [reflexivity | split]].
    + cbn. rewrite Hc. reflexivity.
    + apply shutdown_disconnected. reflexivity.
  - rewrite (shutdown_disconnected env w Hc). cbn [fst snd].
    rewrite app_nil_r.
    split; [reflexivity | split; [exact Hc | split; [reflexivity | ]]].
    apply shutdown_disconnected; exact Hc.
Qed.

Lemma shutdown_idempotent_witness :
  let w1 := snd (shutdown env_ok connected_world) in
  fst (shutdown env_ok connected_world) = Return tt
  /\ is_connected w1 = false
  /\ log w1 = log connected_world ++ [Ev DbDisconnect true None]
  /\ shutdown env_ok w1 = (Return tt, w1).
Proof.
  apply (shutdown_idempotent env_ok connected_world).
  intros w0. reflexivity.
Defined.

(** ** Startup *)

Section StartupFacts.

Variable env : Env.

(** The world [startup] leaves when every collaborator it calls returns. *)
Lemma startup_returns (w : world) :
  (forall w0, connect_raises env w0 = None) ->
  (forall w0, meilisearch_init_raises env w0 = None) ->
  (forall w0, telemetry_ping_raises env w0 = None) ->
  let t := mkTask (length (tasks w)) co_background_tasks in
  startup env w =
    (Return tt,
     {| is_connected := true;
        connections_opened :=
          if is_connected w then connections_opened w
          else S (connections_opened w);
        tasks := tasks w ++ [t];
        log := log w
               ++ (if is_connected w then [] else [Ev DbConnect false None])
               ++ [Ev MeilisearchInit true None;
                   Ev TelemetryPing true None;
                   Ev (CreateTask t) true None] |}).
Proof.
  intros Hc Hm Hp t. run_py.
  destruct (is_connected w) eqn:Hw; cbn;
    repeat (rewrite ?Hw, ?Hc, ?Hm, ?Hp; cbn);
    unfold add_task, record_call, set_connected, count_opened; cbn;
    rewrite ?Hw, <- ?app_assoc; reflexivity.
Qed.


(** C6. The steps of [startup] run strictly in sequence: whatever the
    collaborators answer, the calls [startup] makes are, in this order and
    each at most once, the database connect, the search-index
    initialization, the telemetry ping and the creation of the scheduler
    task; a step is only reached when every step before it has returned; the
    handle reports connected whenever a step after the connect is invoked;
    and a [startup] that returns has made all of them. *)
Theorem startup_steps_in_sequence (w : world) :
  exists new,
    log (snd (startup env w)) = log w ++ new
    /\ StronglySorted lt (map (fun ev => startup_step (ev_call ev)) new)
    /\ Forall (fun ev => startup_step (ev_call ev) < 4) new
    /\ Forall (fun ev => ev_outcome ev = None) (removelast new)
    /\ Forall (fun ev => is_connect (ev_call ev) || ev_connected ev = true) new
    /\ match fst (startup env w) with
       | Return _ =>
           map (fun ev => startup_step (ev_call ev)) new
           = (if is_connected w then [] else [0]) ++ [1; 2; 3]
       | Raise e => last (map ev_outcome new) None = Some e
       end.
Proof.
  startup_cases w; rewrite <- ?app_assoc; cbn;
    (eexists; split; [reflexivity | ]); cbn;
    repeat split;
    repeat (constructor; cbn); try lia; try discriminate; try reflexivity;
    eauto.
Qed.


(** What one [startup] does to the handle. *)
Lemma startup_handle (w : world) :
  let w' := snd (startup env w) in
  (is_connected w = true ->
     is_connected w' = true /\ connections_opened w' = connections_opened w)
  /\ (is_connected w = false ->
       (is_connected w' = true
        /\ connections_opened w' = S (connections_opened w))
       \/ (is_connected w' = false
           /\ connections_opened w' = connections_opened w)).
Proof.
  startup_cases w; split; intros; try discriminate; auto.
Qed.

Lemma startups_open_at_most_one (n : nat) :
  forall w,
    let w' := call_times n (startup env) w in
    (is_connected w = true -> connections_opened w' = connections_opened w)
    /\ connections_opened w' <= S (connections_opened w).
Proof.
  induction n as [|n IH]; intros w; cbv zeta; cbn [call_times].
  - split; auto.
  - destruct (IH (snd (startup env w))) as [IHc IHle].
    destruct (startup_handle w) as [Hc Hd].
    destruct (is_connected w) eqn:Hw.
    + destruct (Hc eq_refl) as [Hc1 Hc2].
      rewrite (IHc Hc1), Hc2. split; auto.
    + split; [discriminate | ].
      destruct (Hd eq_refl) as [[Hd1 Hd2] | [Hd1 Hd2]].
      * rewrite (IHc Hd1), Hd2. auto.
      * rewrite Hd2 in IHle. exact IHle.
Qed.

(** C4. [startup] connects the handle only when it is not connected yet: on
    a handle that reports connected it does not call [connect] and opens no
    connection, so two calls in succession (indeed any number of them) open
    at most one connection, whatever the collaborators answer. *)
Theorem startup_connects_only_if_needed (w : world) :
  (is_connected w = true ->
     exists new,
       log (snd (startup env w)) = log w ++ new
       /\ calls is_connect new = 0
       /\ connections_opened (snd (startup env w)) = connections_opened w)
  /\ connections_opened (call_times 2 (startup env) w)
     <= S (connections_opened w)
  /\ (forall n, connections_opened (call_times n (startup env) w)
                <= S (connections_opened w)).
Proof.
  split; [ | split].
  - intros Hw. run_py. rewrite Hw. cbn. case_answers; unfold_world;
      rewrite <- ?app_assoc; (eexists; split; [reflexivity | ]); cbn; auto.
  - apply (startups_open_at_most_one 2 w).
  - intros n. apply (startups_open_at_most_one n w).
Qed.

End StartupFacts.

Lemma startup_connects_only_if_needed_witness :
  (exists new,
     log (snd (startup env_ok connected_world)) = log connected_world ++ new
     /\ calls is_connect new = 0
     /\ connections_opened (snd (startup env_ok connected_world))
        = connections_opened connected_world)
  /\ connections_opened (call_times 2 (startup env_ok) fresh_world) <= 1.
Proof.
  split.
  - apply (proj1 (startup_connects_only_if_needed env_ok connected_world)).
    reflexivity.
  - apply (proj1 (proj2 (startup_connects_only_if_needed env_ok fresh_world))).
Defined.

(** ** The telemetry ping inside [startup] *)

(** C2 (as stated, refuted). With a telemetry ping that raises, [startup]
    on a freshly booted process raises that exception after the ping and
    never creates the scheduler task. *)
Lemma startup_aborts_on_ping_failure :
  startup env_ping_fails fresh_world
  = (Raise ping_error,
     {| is_connected := true;
        connections_opened := 1;
        tasks := [];
        log := [ Ev DbConnect false None;
                 Ev MeilisearchInit true None;
                 Ev TelemetryPing true (Some ping_error) ] |})
  /\ calls is_create_task (log (snd (startup env_ping_fails fresh_world))) = 0.
Proof.
  split.
  - run_py. unfold_world. reflexivity.
  - vm_compute. reflexivity.
Qed.

(** C2 (amended). [startup] has no handler around the telemetry ping. When
    the steps before it complete, the answer [o] of [telemetry_ping()]
    decides the outcome: if it raises [e], [startup] raises the same [e] and
    no scheduler task is created; only if it returns does [startup] return
    and create the scheduler task. *)
Theorem startup_propagates_ping_outcome (env : Env) (w : world)
    (o : option pyexc)
    (Hconn : forall w0, connect_raises env w0 = None)
    (Hmeili : forall w0, meilisearch_init_raises env w0 = None)
    (Hping : forall w0, telemetry_ping_raises env w0 = o) :
  let w' := snd (startup env w) in
  exists new,
    log w' = log w ++ new
    /\ calls is_telemetry_ping new = 1
    /\ match o with
       | Some e =>
           fst (startup env w) = Raise e
           /\ tasks w' = tasks w
           /\ calls is_create_task new = 0
       | None =>
           fst (startup env w) = Return tt
           /\ tasks w' = tasks w ++ [mkTask (length (tasks w)) co_background_tasks]
           /\ calls is_create_task new = 1
       end.
Proof.
  cbv zeta. run_py.
  destruct (is_connected w) eqn:Hw; cbn;
    repeat (rewrite ?Hw, ?Hconn, ?Hmeili, ?Hping; cbn);
    destruct o as [e|]; cbn; unfold_world; rewrite <- ?app_assoc;
    (eexists; split; [reflexivity | ]); cbn; auto.
Qed.

Lemma startup_propagates_ping_outcome_witness :
  let w' := snd (startup env_ping_fails fresh_world) in
  exists new,
    log w' = log fresh_world ++ new
    /\ calls is_telemetry_ping new = 1
    /\ fst (startup env_ping_fails fresh_world) = Raise ping_error
    /\ tasks w' = tasks fresh_world
    /\ calls is_create_task new = 0.
Proof.
  apply (startup_propagates_ping_outcome env_ping_fails fresh_world
           (Some ping_error)); intros w0; reflexivity.
Defined.

(** ** The background scheduler task *)

Section BackgroundFacts.

Variable sleep_raises : nat -> option pyexc.

(** The loop has no exit of its own: it is still running or it failed. *)
Lemma while_true_sleep_no_return (fuel : nat) :
  forall st, fst (while_true_sleep sleep_raises fuel st) <> Returned.
Proof.
  induction fuel as [|k IH]; intros st; cbn.
  - discriminate.
  - destruct (sleep_raises (length (slept st))); [discriminate | apply IH].
Qed.

(** The loop never touches the scheduler and only ever sleeps one second. *)
Lemma while_true_sleep_state (fuel : nat) :
  forall st,
    let st' := snd (while_true_sleep sleep_raises fuel st) in
    schedule st' = schedule st
    /\ exists k, k <= fuel /\ slept st' = slept st ++ repeat 1 k.
Proof.
  induction fuel as [|k IH]; intros st; cbn.
  - split; [reflexivity | ]. exists 0. split; [lia | ].
    cbn. rewrite app_nil_r. reflexivity.
  - destruct (sleep_raises (length (slept st))); cbn.
    + split; [reflexivity | ]. exists 0. split; [lia | ].
      cbn. rewrite app_nil_r. reflexivity.
    + destruct (IH (mkTaskState (schedule st) (slept st ++ [1]))) as [Hs [j [Hj Hsl]]].
      cbn in Hs, Hsl. split; [exact Hs | ].
      exists (S j). split; [lia | ].
      rewrite Hsl, <- app_assoc. reflexivity.
Qed.

(** While no sleep raises, every iteration is followed by another one. *)
Lemma while_true_sleep_continues (fuel : nat) :
  forall st,
    (forall i, i < fuel -> sleep_raises (length (slept st) + i) = None) ->
    while_true_sleep sleep_raises fuel st
    = (Running, mkTaskState (schedule st) (slept st ++ repeat 1 fuel)).
Proof.
  induction fuel as [|k IH]; intros st Hs; cbn.
  - rewrite app_nil_r. destruct st; reflexivity.
  - pose proof (Hs 0 ltac:(lia)) as H0. rewrite Nat.add_0_r in H0.
    rewrite H0. rewrite IH; cbn.
    + rewrite <- app_assoc. reflexivity.
    + intros i Hi. rewrite length_app. cbn.
      replace (length (slept st) + 1 + i) with (length (slept st) + S i) by lia.
      apply Hs. lia.
Qed.

End BackgroundFacts.

Lemma background_tasks_running (sleep_raises : nat -> option pyexc) (n : nat) :
  (forall i, i < n -> sleep_raises i = None) ->
  background_tasks sleep_raises n
  = (Running,
     mkTaskState
       (mkScheduler [mkJob (datetime.of_hours 6) clean_editor_images_up])
       (repeat 1 n)).
Proof.
  intros Hs. unfold background_tasks.
  rewrite while_true_sleep_continues; [reflexivity | ].
  intros i Hi. apply Hs. exact Hi.
Qed.

(** C9. The scheduler task first registers exactly one cyclic job, the
    editor-image cleanup, with a period of 6 hours (21600 seconds), and then
    loops sleeping one second at a time. The coroutine never returns; and as
    long as no sleep raises (normal operation), after any number [n] of
    iterations it is still running, with that single job registered and [n]
    sleeps of one second behind it — at [n = 0] the job is registered
    before the first sleep. *)
Theorem background_tasks_never_returns (sleep_raises : nat -> option pyexc)
    (n : nat)
    (Hnormal : forall i, i < n -> sleep_raises i = None) :
  let job := mkJob (datetime.of_hours 6) clean_editor_images_up in
  background_tasks sleep_raises n
  = (Running, mkTaskState (mkScheduler [job]) (repeat 1 n))
  /\ datetime.total_seconds (job_timing job) = (6 * 3600)%N
  /\ (forall (other : nat -> option pyexc) (fuel : nat),
        fst (background_tasks other fuel) <> Returned
        /\ cyclic_jobs (schedule (snd (background_tasks other fuel))) = [job]
        /\ Forall (fun s => s = 1) (slept (snd (background_tasks other fuel)))).
Proof.
  cbv zeta. split; [ | split].
  - apply background_tasks_running. exact Hnormal.
  - vm_compute. reflexivity.
  - intros other fuel. unfold background_tasks. split; [ | split].
    + apply while_true_sleep_no_return.
    + destruct (while_true_sleep_state other fuel
                  (mkTaskState
                     (cyclic (datetime.of_hours 6) clean_editor_images_up
                        Scheduler_new) [])) as [Hs _].
      cbn in Hs. rewrite Hs. reflexivity.
    + destruct (while_true_sleep_state other fuel
                  (mkTaskState
                     (cyclic (datetime.of_hours 6) clean_editor_images_up
                        Scheduler_new) [])) as [_ [k [_ Hk]]].
      cbn in Hk. rewrite Hk. clear. induction k; cbn; constructor; auto.
Qed.

Lemma background_tasks_never_returns_witness :
  background_tasks never_raises 3
  = (Running,
     mkTaskState
       (mkScheduler [mkJob (datetime.of_hours 6) clean_editor_images_up])
       [1; 1; 1]).
Proof.
  apply (proj1 (background_tasks_never_returns never_raises 3
                  (fun i _ => eq_refl))).
Defined.

(** ** Repeated startup *)

Lemma calls_app (p : call -> bool) (l1 l2 : list event) :
  calls p (l1 ++ l2) = calls p l1 + calls p l2.
Proof.
  unfold calls. rewrite filter_app, length_app. reflexivity.
Qed.

Lemma scheduler_tasks_run (k n : nat) :
  Forall (fun t =>
            forall sleep_raises fuel,
              (forall i, i < fuel -> sleep_raises i = None) ->
              fst (coroutine_body (task_coro t) sleep_raises fuel) = Running)
    (scheduler_tasks k n).
Proof.
  unfold scheduler_tasks. apply Forall_map, Forall_forall.
  intros i _ sleep_raises fuel Hs. cbn.
  rewrite background_tasks_running by exact Hs. reflexivity.
Qed.

(** C10. Only the connect is guarded. When the collaborators return, each
    of [n] successive calls of [startup] initializes the search index again,
    pings telemetry again and creates one more scheduler task, whether or
    not the handle was connected at the start; only the connect happens at
    most once. The [n] tasks created are distinct tasks running
    [background_tasks], each with a scheduler of its own, and each stays
    running while its sleeps complete. *)
Theorem startup_spawns_every_time (env : Env)
    (Hconn : forall w0, connect_raises env w0 = None)
    (Hmeili : forall w0, meilisearch_init_raises env w0 = None)
    (Hping : forall w0, telemetry_ping_raises env w0 = None)
    (n : nat) (w : world) :
  let w' := call_times n (startup env) w in
  exists new,
    log w' = log w ++ new
    /\ calls is_meilisearch_init new = n
    /\ calls is_telemetry_ping new = n
    /\ calls is_create_task new = n
    /\ calls is_connect new = (if is_connected w then 0 else Nat.min n 1)
    /\ tasks w' = tasks w ++ scheduler_tasks (length (tasks w)) n
    /\ NoDup (map task_id (scheduler_tasks (length (tasks w)) n))
    /\ Forall (fun t =>
                 forall sleep_raises fuel,
                   (forall i, i < fuel -> sleep_raises i = None) ->
                   fst (coroutine_body (task_coro t) sleep_raises fuel) = Running)
         (scheduler_tasks (length (tasks w)) n).
Proof.
  cbv zeta. revert w. induction n as [|n IH]; intros w; cbn [call_times].
  - exists []. rewrite !app_nil_r. cbn.
    repeat split; try constructor. destruct (is_connected w); reflexivity.
  - rewrite (startup_returns env w Hconn Hmeili Hping). cbn [snd].
    match goal with
    | |- context [call_times n (startup env) ?w1] =>
        destruct (IH w1) as (new & Hlog & Hm & Hp & Hc & Hd & Ht & _ & _)
    end.
    cbn [log tasks is_connected] in Hlog, Hd, Ht.
    rewrite length_app in Ht. cbn [length] in Ht.
    rewrite Nat.add_1_r in Ht.
    eexists. split; [ | split; [ | split; [ | split; [ | split; [ | split; [ | split]]]]]].
    + rewrite Hlog, <- !app_assoc. reflexivity.
    + rewrite !calls_app, Hm. destruct (is_connected w); reflexivity.
    + rewrite !calls_app, Hp. destruct (is_connected w); reflexivity.
    + rewrite !calls_app, Hc. destruct (is_connected w); reflexivity.
    + rewrite !calls_app, Hd. destruct (is_connected w); cbn; lia.
    + rewrite Ht, <- app_assoc. reflexivity.
    + unfold scheduler_tasks. rewrite map_map. cbn [task_id].
      rewrite map_id. apply seq_NoDup.
    + apply scheduler_tasks_run.
Qed.

Lemma startup_spawns_every_time_witness :
  let w' := call_times 3 (startup env_ok) connected_world in
  exists new,
    log w' = log connected_world ++ new
    /\ calls is_meilisearch_init new = 3
    /\ calls is_telemetry_ping new = 3
    /\ calls is_create_task new = 3
    /\ calls is_connect new = 0
    /\ tasks w' = tasks connected_world ++ scheduler_tasks 0 3
    /\ NoDup (map task_id (scheduler_tasks 0 3))
    /\ Forall (fun t =>
                 forall sleep_raises fuel,
                   (forall i, i < fuel -> sleep_raises i = None) ->
                   fst (coroutine_body (task_coro t) sleep_raises fuel) = Running)
         (scheduler_tasks 0 3).
Proof.
  apply (startup_spawns_every_time env_ok
           (fun _ => eq_refl) (fun _ => eq_refl) (fun _ => eq_refl)
           3 connected_world).
Defined.

(** ** The exception-capture wrapper *)

(** A handler that returns is left alone: same response, nothing reported. *)
Lemma sentry_exception_returns (request : Request) (call_next : handler)
    (w w1 : world) (response : Response) :
  call_next request w = (Return response, w1) ->
  sentry_exception request call_next w = (Return response, w1).
Proof.
  intros H. run_py. rewrite H. reflexivity.
Qed.

(** An object that is not an [Exception] passes through unreported. *)
Lemma sentry_exception_passes_base (request : Request) (call_next : handler)
    (w w1 : world) (e : pyexc) :
  call_next request w = (Raise e, w1) ->
  exc_is_Exception e = false ->
  sentry_exception request call_next w = (Raise e, w1).
Proof.
  intros H He. run_py. rewrite H. cbn. rewrite He. reflexivity.
Qed.

(** What the wrapper does with an [Exception] coming out of [call_next]. *)
Lemma sentry_exception_raise (request : Request) (call_next : handler)
    (w w1 : world) (e : pyexc) :
  call_next request w = (Raise e, w1) ->
  exc_is_Exception e = true ->
  sentry_exception request call_next w
  = (Raise e,
     {| is_connected := is_connected w1;
        connections_opened := connections_opened w1;
        tasks := tasks w1;
        log := log w1 ++ capture_report request e (is_connected w1) |}).
Proof.
  intros Hraise Hexc. run_py. rewrite Hraise. cbn. rewrite Hexc. unfold_world.
  rewrite <- !app_assoc. reflexivity.
Qed.

(** C3. When the inner handler raises an exception [e], the wrapper reports
    it to the error reporter exactly once, with the request attached as
    context inside a pushed scope, and then raises the very same [e]; apart
    from the four reporter calls the world is as the handler left it. *)
Theorem sentry_exception_reports_once (request : Request)
    (call_next : handler) (w w1 : world) (e : pyexc)
    (Hraise : call_next request w = (Raise e, w1))
    (Hexc : exc_is_Exception e = true) :
  sentry_exception request call_next w
  = (Raise e,
     {| is_connected := is_connected w1;
        connections_opened := connections_opened w1;
        tasks := tasks w1;
        log := log w1 ++ capture_report request e (is_connected w1) |})
  /\ calls is_capture (capture_report request e (is_connected w1)) = 1
  /\ In (Ev (CaptureException e) (is_connected w1) None)
        (capture_report request e (is_connected w1)).
Proof.
  split; [ | split].
  - apply sentry_exception_raise; assumption.
  - reflexivity.
  - cbn. auto.
Qed.

Lemma sentry_exception_reports_once_witness :
  sentry_exception login_request router_fails connected_world
  = (Raise handler_error,
     {| is_connected := true;
        connections_opened := 1;
        tasks := [];
        log := capture_report login_request handler_error true |})
  /\ calls is_capture (capture_report login_request handler_error true) = 1
  /\ In (Ev (CaptureException handler_error) true None)
        (capture_report login_request handler_error true).
Proof.
  apply (sentry_exception_reports_once login_request router_fails
           connected_world connected_world handler_error eq_refl eq_refl).
Defined.

(** ** The middleware chain *)




(** ** The route table *)

(** C7. The registered prefixes are the twelve prefixes of the
    external-interface table, in the table's order; no prefix occurs twice;
    each begins with [/api/v1]; the real-time transport is the only mount
    and sits at [/], which is none of the prefixes and lies under none of
    them. *)
Theorem route_prefixes_namespaced (env : Env) (secret_key : string)
    (rememberme_middleware : dispatch) :
  let a := app env secret_key rememberme_middleware in
  registered_prefixes a = map fst spec_interface_table
  /\ length (registered_prefixes a) = 12
  /\ NoDup (registered_prefixes a)
  /\ Forall (fun p => under_prefix "/api/v1" p = true) (registered_prefixes a)
  /\ mount_paths (routes a) = ["/"]
  /\ ~ In "/" (registered_prefixes a)
  /\ Forall (fun p => under_prefix p "/" = false) (registered_prefixes a).
Proof.
  cbv zeta.
  split; [reflexivity | ]. split; [reflexivity | ].
  split.
  { replace (registered_prefixes (app env secret_key rememberme_middleware))
      with (nodup string_dec
              (registered_prefixes (app env secret_key rememberme_middleware)))
      by (vm_compute; reflexivity).
    apply NoDup_nodup. }
  split; [repeat (constructor; [reflexivity | ]); constructor | ].
  split; [reflexivity | ].
  split.
  - intros Hin. vm_compute in Hin.
    repeat (destruct Hin as [Hin | Hin]; [discriminate Hin | ]). exact Hin.
  - repeat (constructor; [reflexivity | ]); constructor.
Qed.

(** C8. Exactly one registered route group is kept out of the schema: the
    internal-testing group at [/api/v1/internal/testing]; the other eleven
    are schema-visible, and the visibility of each group is the one the
    external-interface table gives for its prefix. *)
Theorem only_testing_routes_hidden (env : Env) (secret_key : string)
    (rememberme_middleware : dispatch) :
  let a := app env secret_key rememberme_middleware in
  hidden_from_schema a
  = [mkIncluded "testing_routes" ["internal"; "testing"]
       "/api/v1/internal/testing" false]
  /\ length (shown_in_schema a) = 11
  /\ Forall (fun r => inc_include_in_schema r
                      = negb (String.eqb (inc_prefix r) "/api/v1/internal/testing"))
       (included_routers (routes a))
  /\ map (fun r => (inc_prefix r, inc_include_in_schema r))
       (included_routers (routes a))
     = spec_interface_table.
Proof.
  cbv zeta.
  split; [reflexivity | ]. split; [reflexivity | ].
  split; [ | reflexivity].
  repeat (constructor; [reflexivity | ]); constructor.
Qed.

(** * Further properties of the module *)

(** ** The exception-capture wrapper is transparent *)

(** X1. Whatever the inner handler does, the wrapper hands on exactly its
    outcome — the same response, or the same raised object — and leaves the
    database handle and the tasks as the handler left them. It reports
    (the four reporter calls) only when the handler raised an instance of
    [Exception]; a returned response or an object that is only a
    [BaseException] is reported nowhere. *)
Theorem sentry_exception_transparent (request : Request)
    (call_next : handler) (w : world) :
  let inner := call_next request w in
  let outer := sentry_exception request call_next w in
  fst outer = fst inner
  /\ is_connected (snd outer) = is_connected (snd inner)
  /\ connections_opened (snd outer) = connections_opened (snd inner)
  /\ tasks (snd outer) = tasks (snd inner)
  /\ log (snd outer)
     = log (snd inner)
       ++ match fst inner with
          | Return _ => []
          | Raise e =>
              if exc_is_Exception e
              then capture_report request e (is_connected (snd inner))
              else []
          end.
Proof.
  cbv zeta. run_py.
  destruct (call_next request w) as [[response | e] w1]; cbn.
  - rewrite app_nil_r. repeat split.
  - destruct (exc_is_Exception e); cbn; unfold_world.
    + rewrite <- !app_assoc. repeat split.
    + rewrite app_nil_r. repeat split.
Qed.

(** ** Outcomes of [startup] *)

(** X2. A [startup] that returns leaves the handle connected and exactly one
    new scheduler task on the loop, whatever the collaborators are. *)
Theorem startup_return_postcondition (env : Env) (w : world)
    (Hret : fst (startup env w) = Return tt) :
  let w' := snd (startup env w) in
  is_connected w' = true
  /\ tasks w' = tasks w ++ [mkTask (length (tasks w)) co_background_tasks]
  /\ connections_opened w'
     = (if is_connected w then 0 else 1) + connections_opened w.
Proof.
  revert Hret. startup_cases w; intros Hret; try discriminate Hret;
    repeat split.
Qed.

Lemma startup_return_postcondition_witness :
  let w' := snd (startup env_ok fresh_world) in
  is_connected w' = true
  /\ tasks w' = [mkTask 0 co_background_tasks]
  /\ connections_opened w' = 1.
Proof.
  apply (startup_return_postcondition env_ok fresh_world eq_refl).
Defined.

(** X3. A [startup] that raises has created no scheduler task, has not
    disconnected a handle that was connected, and the object it raises is
    the one its last collaborator call raised. *)
Theorem startup_raise_postcondition (env : Env) (w : world) (e : pyexc)
    (Hraise : fst (startup env w) = Raise e) :
  let w' := snd (startup env w) in
  tasks w' = tasks w
  /\ (if is_connected w then is_connected w' = true else True)
  /\ exists new,
       log w' = log w ++ new
       /\ calls is_create_task new = 0
       /\ last (map ev_outcome new) None = Some e.
Proof.
  revert Hraise. startup_cases w; intros Hraise;
    try discriminate Hraise; inversion Hraise; subst;
    rewrite <- ?app_assoc; cbn;
    (split; [reflexivity | split; [reflexivity | ]]);
    (eexists; split; [reflexivity | ]); cbn; auto.
Qed.

Lemma startup_raise_postcondition_witness :
  let w' := snd (startup env_search_fails fresh_world) in
  tasks w' = tasks fresh_world
  /\ True
  /\ exists new,
       log w' = log fresh_world ++ new
       /\ calls is_create_task new = 0
       /\ last (map ev_outcome new) None = Some search_error.
Proof.
  apply (startup_raise_postcondition env_search_fails fresh_world
           search_error eq_refl).
Defined.

(** X4. When the handle is disconnected and [connect] raises, [startup]
    raises the same object right there: the only call made is the connect,
    so the search index is not initialized, telemetry is not pinged, no task
    is created, and the handle stays disconnected. *)
Theorem startup_connect_failure_is_fatal (env : Env) (w : world) (e : pyexc)
    (Hdown : is_connected w = false)
    (Hconn : connect_raises env w = Some e) :
  startup env w = (Raise e, record_call DbConnect (Some e) w)
  /\ is_connected (snd (startup env w)) = false
  /\ log (snd (startup env w)) = log w ++ [Ev DbConnect false (Some e)].
Proof.
  run_py. rewrite Hdown. cbn. rewrite Hdown, Hconn. cbn.
  unfold_world. rewrite Hdown. repeat split.
Qed.

Lemma startup_connect_failure_is_fatal_witness :
  startup env_connect_fails fresh_world
  = (Raise connect_error, record_call DbConnect (Some connect_error) fresh_world)
  /\ is_connected (snd (startup env_connect_fails fresh_world)) = false
  /\ log (snd (startup env_connect_fails fresh_world))
     = log fresh_world ++ [Ev DbConnect false (Some connect_error)].
Proof.
  apply (startup_connect_failure_is_fatal env_connect_fails fresh_world
           connect_error eq_refl eq_refl).
Defined.

(** X5. When the search-index initialization raises, [startup] raises the
    same object, never pings telemetry and creates no task — but the
    connection it opened just before stays open: the handle is left
    connected. *)
Theorem startup_search_failure_leaves_connection (env : Env) (w : world)
    (e : pyexc)
    (Hconn : forall w0, connect_raises env w0 = None)
    (Hmeili : forall w0, meilisearch_init_raises env w0 = Some e) :
  let w' := snd (startup env w) in
  fst (startup env w) = Raise e
  /\ is_connected w' = true
  /\ connections_opened w'
     = (if is_connected w then 0 else 1) + connections_opened w
  /\ tasks w' = tasks w
  /\ exists new,
       log w' = log w ++ new
       /\ calls is_telemetry_ping new = 0
       /\ calls is_create_task new = 0.
Proof.
  cbv zeta. run_py.
  destruct (is_connected w) eqn:Hw; cbn;
    repeat (rewrite ?Hw, ?Hconn, ?Hmeili; cbn);
    unfold_world; rewrite ?Hw, <- ?app_assoc;
    (split; [reflexivity | split; [reflexivity | split; [reflexivity |
       split; [reflexivity | ]]]]);
    (eexists; split; [reflexivity | ]); cbn; auto.
Qed.

Lemma startup_search_failure_leaves_connection_witness :
  let w' := snd (startup env_search_fails fresh_world) in
  fst (startup env_search_fails fresh_world) = Raise search_error
  /\ is_connected w' = true
  /\ connections_opened w' = 1 + connections_opened fresh_world
  /\ tasks w' = tasks fresh_world
  /\ exists new,
       log w' = log fresh_world ++ new
       /\ calls is_telemetry_ping new = 0
       /\ calls is_create_task new = 0.
Proof.
  apply (startup_search_failure_leaves_connection env_search_fails
           fresh_world search_error (fun _ => eq_refl) (fun _ => eq_refl)).
Defined.

(** ** What [shutdown] leaves alone, and its failure *)


(** X7. When the handle is connected and [disconnect] raises, [shutdown]
    raises the same object and the handle still reports connected, so a
    later [shutdown] tries the disconnect again. *)
Theorem shutdown_disconnect_failure (env : Env) (w : world) (e : pyexc)
    (Hup : is_connected w = true)
    (Hdisc : forall w0, disconnect_raises env w0 = Some e) :
  let w1 := snd (shutdown env w) in
  fst (shutdown env w) = Raise e
  /\ is_connected w1 = true
  /\ log w1 = log w ++ [Ev DbDisconnect true (Some e)]
  /\ log (snd (shutdown env w1))
     = log w ++ [Ev DbDisconnect true (Some e); Ev DbDisconnect true (Some e)].
Proof.
  cbv zeta. run_py. rewrite Hup. cbn. rewrite Hup, Hdisc. cbn.
  unfold_world. rewrite Hup. cbn. rewrite Hdisc. cbn.
  rewrite <- !app_assoc. repeat split.
Qed.

Lemma shutdown_disconnect_failure_witness :
  let w1 := snd (shutdown env_disconnect_fails connected_world) in
  fst (shutdown env_disconnect_fails connected_world) = Raise disconnect_error
  /\ is_connected w1 = true
  /\ log w1
     = log connected_world ++ [Ev DbDisconnect true (Some disconnect_error)]
  /\ log (snd (shutdown env_disconnect_fails w1))
     = log connected_world
       ++ [Ev DbDisconnect true (Some disconnect_error);
           Ev DbDisconnect true (Some disconnect_error)].
Proof.
  apply (shutdown_disconnect_failure env_disconnect_fails connected_world
           disconnect_error eq_refl (fun _ => eq_refl)).
Defined.

(** ** Boot after boot *)

(** One boot from a disconnected handle, when every collaborator returns. *)
Lemma lifespan_once (env : Env) (secret_key : string)
    (rememberme_middleware : dispatch) (w : world) :
  (forall w0, connect_raises env w0 = None) ->
  (forall w0, disconnect_raises env w0 = None) ->
  (forall w0, meilisearch_init_raises env w0 = None) ->
  (forall w0, telemetry_ping_raises env w0 = None) ->
  is_connected w = false ->
  let t := mkTask (length (tasks w)) co_background_tasks in
  lifespan (app env secret_key rememberme_middleware) w
  = (Return tt,
     {| is_connected := false;
        connections_opened := S (connections_opened w);
        tasks := tasks w ++ [t];
        log := log w
               ++ [Ev DbConnect false None;
                   Ev MeilisearchInit true None;
                   Ev TelemetryPing true None;
                   Ev (CreateTask t) true None;
                   Ev DbDisconnect true None] |}).
Proof.
  intros Hc Hd Hm Hp Hw t. unfold lifespan, app.
  cbn -[startup shutdown]. unfold bind, ret.
  rewrite (startup_returns env w Hc Hm Hp). rewrite Hw.
  rewrite shutdown_connected; [ | reflexivity | apply Hd].
  unfold_world. rewrite <- !app_assoc. reflexivity.
Qed.

Lemma call_times_O (hook : M unit) (w : world) :
  call_times 0 hook w = w.
Proof. reflexivity. Qed.

Lemma call_times_S (k : nat) (hook : M unit) (w : world) :
  call_times (S k) hook w = call_times k hook (snd (hook w)).
Proof. reflexivity. Qed.

(** X8. The guard of [startup] looks at the handle's state, not at the
    history. Booting the application [k] times in a row (startup hooks, then
    shutdown hooks), with collaborators that return, opens [k] connections
    one after the other and ends disconnected — and since [shutdown] cancels
    nothing, the [k] scheduler tasks created on the way are all still on the
    loop. *)
Theorem lifespan_repeated (env : Env) (secret_key : string)
    (rememberme_middleware : dispatch)
    (Hconn : forall w0, connect_raises env w0 = None)
    (Hdisc : forall w0, disconnect_raises env w0 = None)
    (Hmeili : forall w0, meilisearch_init_raises env w0 = None)
    (Hping : forall w0, telemetry_ping_raises env w0 = None)
    (k : nat) (w : world)
    (Hdown : is_connected w = false) :
  let w' := call_times k (lifespan (app env secret_key rememberme_middleware)) w in
  is_connected w' = false
  /\ connections_opened w' = k + connections_opened w
  /\ tasks w' = tasks w ++ scheduler_tasks (length (tasks w)) k
  /\ exists new,
       log w' = log w ++ new
       /\ calls is_connect new = k
       /\ calls is_disconnect_call new = k.
Proof.
  cbv zeta. revert w Hdown. induction k as [|k IH]; intros w Hdown.
  - rewrite call_times_O.
    split; [exact Hdown | split; [reflexivity | split]].
    + unfold scheduler_tasks. cbn [seq map]. rewrite app_nil_r. reflexivity.
    + exists []. rewrite app_nil_r. repeat split.
  - rewrite call_times_S.
    rewrite (lifespan_once env secret_key rememberme_middleware w
               Hconn Hdisc Hmeili Hping Hdown). cbn [snd].
    match goal with
    | |- context [call_times k _ ?w1] =>
        destruct (IH w1 eq_refl) as (Hi & Ho & Ht & new & Hl & Hnc & Hnd)
    end.
    cbn [tasks connections_opened log] in Ho, Ht, Hl.
    rewrite length_app in Ht. cbn [length] in Ht. rewrite Nat.add_1_r in Ht.
    split; [exact Hi | split; [rewrite Ho; lia | split]].
    + rewrite Ht, <- app_assoc. reflexivity.
    + eexists. split; [rewrite Hl, <- app_assoc; reflexivity | ].
      rewrite !calls_app, Hnc, Hnd. split; reflexivity.
Qed.

Lemma lifespan_repeated_witness :
  let w' := call_times 2 (lifespan (app env_ok "secret" pass_through))
              fresh_world in
  is_connected w' = false
  /\ connections_opened w' = 2 + connections_opened fresh_world
  /\ tasks w' = tasks fresh_world ++ scheduler_tasks (length (tasks fresh_world)) 2
  /\ exists new,
       log w' = log fresh_world ++ new
       /\ calls is_connect new = 2
       /\ calls is_disconnect_call new = 2.
Proof.
  apply (lifespan_repeated env_ok "secret" pass_through
           (fun _ => eq_refl) (fun _ => eq_refl) (fun _ => eq_refl)
           (fun _ => eq_refl) 2 fresh_world eq_refl).
Defined.

(** ** Cancelling the scheduler task *)

Lemma while_true_sleep_fails (sleep_raises : nat -> option pyexc) (e : pyexc)
    (k : nat) :
  forall fuel st,
    (forall i, i < k -> sleep_raises (length (slept st) + i) = None) ->
    sleep_raises (length (slept st) + k) = Some e ->
    k < fuel ->
    while_true_sleep sleep_raises fuel st
    = (Failed e, mkTaskState (schedule st) (slept st ++ repeat 1 k)).
Proof.
  induction k as [|k IH]; intros fuel st Hbefore Hat Hfuel;
    (destruct fuel as [|fuel]; [lia | ]); cbn [while_true_sleep].
  - rewrite Nat.add_0_r in Hat. rewrite Hat. cbn.
    rewrite app_nil_r. destruct st; reflexivity.
  - pose proof (Hbefore 0 ltac:(lia)) as H0. rewrite Nat.add_0_r in H0.
    rewrite H0. rewrite (IH fuel); cbn [slept schedule].
    + rewrite <- app_assoc. reflexivity.
    + intros i Hi. rewrite length_app. cbn [length].
      replace (length (slept st) + 1 + i) with (length (slept st) + S i) by lia.
      apply Hbefore. lia.
    + rewrite length_app. cbn [length].
      replace (length (slept st) + 1 + k) with (length (slept st) + S k) by lia.
      exact Hat.
    + lia.
Qed.

(** X9. The loop has no handler of its own: the first sleep that raises
    (a cancellation, say) ends the task with that very object, after exactly
    the sleeps completed before it; the job registered at the start is still
    the only one, and no later iteration runs however long the task is
    given. *)
Theorem background_tasks_stops_on_raise (sleep_raises : nat -> option pyexc)
    (e : pyexc) (k fuel : nat)
    (Hbefore : forall i, i < k -> sleep_raises i = None)
    (Hat : sleep_raises k = Some e)
    (Hfuel : k < fuel) :
  background_tasks sleep_raises fuel
  = (Failed e,
     mkTaskState
       (mkScheduler [mkJob (datetime.of_hours 6) clean_editor_images_up])
       (repeat 1 k)).
Proof.
  unfold background_tasks.
  rewrite (while_true_sleep_fails sleep_raises e k); auto.
Qed.

Lemma background_tasks_stops_on_raise_witness :
  background_tasks cancelled_at_2 10
  = (Failed cancelled_error,
     mkTaskState
       (mkScheduler [mkJob (datetime.of_hours 6) clean_editor_images_up])
       [1; 1]).
Proof.
  apply (background_tasks_stops_on_raise cancelled_at_2 cancelled_error 2 10).
  - intros i Hi. destruct i as [|[|i]]; [reflexivity | reflexivity | lia].
  - reflexivity.
  - lia.
Defined.

(** ** Route groups do not overlap *)

Lemma prefix_of_same_string (s : string) :
  forall p q,
    String.prefix p s = true -> String.prefix q s = true ->
    String.prefix p q = true \/ String.prefix q p = true.
Proof.
  induction s as [|c s IH]; intros p q Hp Hq.
  - destruct p; [ | discriminate Hp]. left. destruct q; reflexivity.
  - destruct p as [|a p].
    + left. destruct q; reflexivity.
    + destruct q as [|b q].
      * right. reflexivity.
      * cbn in Hp, Hq |- *.
        destruct (Ascii.ascii_dec a c) as [-> | ]; [ | discriminate Hp].
        destruct (Ascii.ascii_dec b c) as [-> | ]; [ | discriminate Hq].
        destruct (Ascii.ascii_dec c c) as [_ | Hn]; [ | contradiction].
        apply IH; assumption.
Qed.

(** No registered prefix is an initial segment of another one. *)
Lemma registered_prefixes_prefix_free (env : Env) (secret_key : string)
    (rememberme_middleware : dispatch) (p q : string) :
  In p (registered_prefixes (app env secret_key rememberme_middleware)) ->
  In q (registered_prefixes (app env secret_key rememberme_middleware)) ->
  under_prefix p q = true -> p = q.
Proof.
  intros Hp Hq Hpq.
  assert (Hall :
    forallb (fun p0 =>
               forallb (fun q0 => implb (under_prefix p0 q0) (String.eqb p0 q0))
                 (registered_prefixes (app env secret_key rememberme_middleware)))
      (registered_prefixes (app env secret_key rememberme_middleware)) = true)
    by (vm_compute; reflexivity).
  rewrite forallb_forall in Hall. specialize (Hall p Hp).
  rewrite forallb_forall in Hall. specialize (Hall q Hq).
  rewrite Hpq in Hall. cbn in Hall. apply String.eqb_eq. exact Hall.
Qed.

(** X10. The route groups do not overlap: a request path lies under at most
    one registered prefix, so the prefix alone decides which route group a
    path belongs to. *)
Theorem route_groups_do_not_overlap (env : Env) (secret_key : string)
    (rememberme_middleware : dispatch) (path p q : string)
    (Hp : In p (registered_prefixes (app env secret_key rememberme_middleware)))
    (Hq : In q (registered_prefixes (app env secret_key rememberme_middleware)))
    (Hpath_p : under_prefix p path = true)
    (Hpath_q : under_prefix q path = true) :
  p = q.
Proof.
  destruct (prefix_of_same_string path p q Hpath_p Hpath_q) as [H | H].
  - apply (registered_prefixes_prefix_free env secret_key
             rememberme_middleware p q Hp Hq H).
  - symmetry.
    apply (registered_prefixes_prefix_free env secret_key
             rememberme_middleware q p Hq Hp H).
Qed.

Lemma route_groups_do_not_overlap_witness :
  In "/api/v1/users" (registered_prefixes (app env_ok "secret" pass_through))
  /\ under_prefix "/api/v1/users" "/api/v1/users/me" = true
  /\ "/api/v1/users" = "/api/v1/users".
Proof.
  split; [cbn; auto | split; [reflexivity | ]].
  apply (route_groups_do_not_overlap env_ok "secret" pass_through
           "/api/v1/users/me" "/api/v1/users" "/api/v1/users").
  - cbn. auto.
  - cbn. auto.
  - reflexivity.
  - reflexivity.
Defined.


(** X12. Every route group is registered with at least one documentation
    tag, and no tag is shared by two groups (nor repeated within one): the
    fourteen tags are pairwise different. *)
Theorem route_tags_distinct (env : Env) (secret_key : string)
    (rememberme_middleware : dispatch) :
  let a := app env secret_key rememberme_middleware in
  Forall (fun r => inc_tags r <> []) (included_routers (routes a))
  /\ length (all_tags a) = 14
  /\ NoDup (all_tags a).
Proof.
  cbv zeta. split; [ | split; [reflexivity | ]].
  - repeat (constructor; [discriminate | ]); constructor.
  - replace (all_tags (app env secret_key rememberme_middleware))
      with (nodup string_dec
              (all_tags (app env secret_key rememberme_middleware)))
      by (vm_compute; reflexivity).
    apply NoDup_nodup.
Qed.


(** ** The whole chain, when session and auth let the request through *)



